(** * go-krill-utils: error propagation and HTTP response translation

    A shallow embedding of the packages [errors] (errors.go and the error
    factory) and [response] (response.go, service.go and the validation
    detail parser), together with the parts of the Go standard library
    they call: [strings.Split], [strings.ReplaceAll], [strings.TrimSpace],
    [strings.TrimSuffix], and the [encoding/json] encoder and decoder for
    the shapes that travel between the two packages.

    Go strings are byte sequences: they are modelled by [string], whose
    characters are the bytes.  Go [int] and [int32] values are modelled
    by [Z]; the [int32] range is checked where the decoder checks it.
    A run-time panic is an explicit [Panic] outcome. *)

From Stdlib Require Import Strings.String Strings.Ascii Lists.List.
From Stdlib Require Import ZArith NArith Arith Bool Lia.
From Stdlib Require Import Numbers.DecimalString.
From Stdlib Require DecimalFacts DecimalPos DecimalN DecimalZ.
Import ListNotations.

#[local] Set Warnings "-register-all".

Local Open Scope list_scope.
Local Open Scope string_scope.

(** ** Outcomes: a returned value or a Go panic *)

Inductive outcome (A : Type) : Type :=
| Ret (a : A)
| Panic (msg : string).

Arguments Ret {A} a.
Arguments Panic {A} msg.

Definition bind {A B : Type} (m : outcome A) (k : A -> outcome B) : outcome B :=
  match m with
  | Ret a => k a
  | Panic msg => Panic msg
  end.

Notation "x <- m ;; k" := (bind m (fun x => k))
  (at level 61, m at next level, right associativity).
Notation "' pat <- m ;; k" := (bind m (fun x => match x with pat => k end))
  (at level 61, pat pattern, m at next level, right associativity).

(** [xs[i]] on a Go slice: panics when the index is out of range. *)
Definition at_index {A : Type} (xs : list A) (i : nat) : outcome A :=
  match nth_error xs i with
  | Some x => Ret x
  | None => Panic "index out of range"
  end.

(** ** Bytes *)

Definition byte := ascii.

Definition bval (c : byte) : N := N_of_ascii c.
Definition byte_of (n : N) : byte := ascii_of_N n.

(** The double quote character, and a string made of one byte. *)
Definition dq : byte := "034"%char.
Definition str1 (c : byte) : string := String c EmptyString.
Definition DQ : string := str1 dq.

(** Test inputs are written with single quotes where the Go text has double
    quotes; [js] puts the double quotes back. *)
Fixpoint js (s : string) : string :=
  match s with
  | EmptyString => EmptyString
  | String c rest => String (if Ascii.eqb c "'"%char then dq else c) (js rest)
  end.

Fixpoint reverse_onto (s acc : string) : string :=
  match s with
  | EmptyString => acc
  | String c rest => reverse_onto rest (String c acc)
  end.

Definition reverse (s : string) : string := reverse_onto s EmptyString.

Fixpoint drop (n : nat) (s : string) : string :=
  match n, s with
  | O, _ => s
  | S k, String _ rest => drop k rest
  | S _, EmptyString => EmptyString
  end.

Fixpoint take (n : nat) (s : string) : string :=
  match n, s with
  | O, _ => EmptyString
  | S k, String c rest => String c (take k rest)
  | S _, EmptyString => EmptyString
  end.

(** ** Package strings (Go standard library) *)

Module Strings.

Definition HasPrefix (s pre : string) : bool := String.prefix pre s.

Definition HasSuffix (s suf : string) : bool :=
  String.prefix (reverse suf) (reverse s).

Definition TrimPrefix (s pre : string) : string :=
  if HasPrefix s pre then drop (String.length pre) s else s.

Definition TrimSuffix (s suf : string) : string :=
  if HasSuffix s suf then take (String.length s - String.length suf) s else s.

(** [strings.Split(s, sep)] for a non-empty [sep]: cut at the leftmost
    occurrences of [sep], which do not overlap.  [skip] counts the bytes
    of an occurrence that are still to be passed over; [cur] is the piece
    being read.  The program calls Split with one-byte and three-byte
    literal separators only. *)
Fixpoint split_from (sep : string) (skip : nat) (cur : string) (s : string)
  : list string :=
  match s with
  | EmptyString => [cur]
  | String c rest =>
      match skip with
      | S k => split_from sep k cur rest
      | O =>
          if String.prefix sep s
          then cur :: split_from sep (String.length sep - 1) EmptyString rest
          else split_from sep 0 (cur ++ str1 c) rest
      end
  end.

Definition Split (s sep : string) : list string :=
  split_from sep 0 EmptyString s.

(** [strings.ReplaceAll(s, old, new)] for a non-empty [old]: the leftmost
    occurrences of [old], which do not overlap, become [new]. *)
Fixpoint replace_from (old new : string) (skip : nat) (s : string) : string :=
  match s with
  | EmptyString => EmptyString
  | String c rest =>
      match skip with
      | S k => replace_from old new k rest
      | O =>
          if String.prefix old s
          then new ++ replace_from old new (String.length old - 1) rest
          else String c (replace_from old new 0 rest)
      end
  end.

Definition ReplaceAll (s old new : string) : string :=
  replace_from old new 0 s.


(** White space as [unicode.IsSpace] has it, on the UTF-8 encoding:
    the six ASCII spaces; U+0085 and U+00A0 (two bytes); U+1680,
    U+2000..U+200A, U+2028, U+2029, U+202F, U+205F and U+3000 (three
    bytes). *)
Definition space1 (c : byte) : bool :=
  let n := bval c in
  ((9 <=? n) && (n <=? 13) || (n =? 32))%N.

Definition space2 (c1 c2 : byte) : bool :=
  ((bval c1 =? 194) && ((bval c2 =? 133) || (bval c2 =? 160)))%N.

Definition space3 (c1 c2 c3 : byte) : bool :=
  let a := bval c1 in
  let b := bval c2 in
  let c := bval c3 in
  ((a =? 225) && (b =? 154) && (c =? 128)
   || (a =? 226) && (b =? 128)
      && ((128 <=? c) && (c <=? 138) || (c =? 168) || (c =? 169) || (c =? 175))
   || (a =? 226) && (b =? 129) && (c =? 159)
   || (a =? 227) && (b =? 128) && (c =? 128))%N.

(** Drop the white-space runes at the front.  [is2] and [is3] recognise
    the two-byte and three-byte spaces in the order the bytes are met. *)
Fixpoint trim_front (is2 : byte -> byte -> bool)
  (is3 : byte -> byte -> byte -> bool) (s : string) : string :=
  match s with
  | EmptyString => s
  | String c1 r1 =>
      if space1 c1 then trim_front is2 is3 r1
      else
        match r1 with
        | EmptyString => s
        | String c2 r2 =>
            if is2 c1 c2 then trim_front is2 is3 r2
            else
              match r2 with
              | EmptyString => s
              | String c3 r3 =>
                  if is3 c1 c2 c3 then trim_front is2 is3 r3 else s
              end
        end
  end.

Definition TrimLeftSpace (s : string) : string := trim_front space2 space3 s.

(** From the end the bytes of a rune are met last byte first. *)
Definition TrimRightSpace (s : string) : string :=
  reverse (trim_front (fun a b => space2 b a) (fun a b c => space3 c b a)
             (reverse s)).

Definition TrimSpace (s : string) : string :=
  TrimRightSpace (TrimLeftSpace s).

End Strings.

(** ** Package response: the validation detail parser (response.go) *)

Module Validation.

(** [type Field struct]. *)
Record Field : Type := mkField {
  Field_Field : string;
  Field_Message : string;
  Field_Location : string
}.

(** [formatMessage(s, v)]: every occurrence of [s + ":"] is removed from [v]. *)
Definition formatMessage (s v : string) : string :=
  Strings.ReplaceAll v (s ++ ":") EmptyString.

(** [getFieldNameAndLocation(data)]. *)
Definition getFieldNameAndLocation (data : string) : outcome (string * string) :=
  let res := Strings.Split (Strings.TrimSpace data) "@" in
  if (List.length res =? 1)%nat then Ret (data, "body")
  else
    r0 <- at_index res 0 ;;
    r1 <- at_index res 1 ;;
    Ret (Strings.TrimSpace r0, Strings.TrimSpace r1).

(** One turn of the loop of [newValidationErrorFields]: [err] is the
    function's argument (the whole input), [re] the segment, [errs] the
    slice built so far. *)
Definition segment_step (err : string) (errs : list Field) (re : string)
  : outcome (list Field) :=
  let re := Strings.ReplaceAll re DQ EmptyString in
  let msg := Strings.Split (Strings.TrimSpace re) ":" in
  errs <-
    (if (List.length msg =? 2)%nat then
       m0 <- at_index msg 0 ;;
       ' (field, location) <- getFieldNameAndLocation m0 ;;
       m1 <- at_index msg 1 ;;
       Ret (errs ++ [ {| Field_Field := field;
                         Field_Message :=
                           Strings.TrimSuffix (Strings.TrimSpace m1) ".";
                         Field_Location := location |} ])%list
     else Ret errs) ;;
  if (2 <? List.length msg)%nat then
    m0 <- at_index msg 0 ;;
    ' (field, location) <- getFieldNameAndLocation m0 ;;
    Ret (errs ++ [ {| Field_Field := field;
                      Field_Message :=
                        Strings.TrimSuffix
                          (Strings.TrimSpace (formatMessage m0 err)) ".";
                      Field_Location := location |} ])%list
  else Ret errs.

Fixpoint range_segments (err : string) (errs : list Field) (res : list string)
  : outcome (list Field) :=
  match res with
  | [] => Ret errs
  | re :: rest =>
      errs <- segment_step err errs re ;;
      range_segments err errs rest
  end.

(** The separator of the segments: a comma between two double quotes. *)
Definition segment_separator : string := DQ ++ "," ++ DQ.

(** [newValidationErrorFields(err)]. *)
Definition newValidationErrorFields (err : string) : outcome (list Field) :=
  let res := Strings.Split err segment_separator in
  range_segments err [] res.

End Validation.

(** ** Package unicode/utf8 (Go standard library) *)

Module Utf8.

(** U+FFFD, the rune that stands for an encoding error. *)
Definition RuneError : N := 65533.
Definition MaxRune : N := 1114111.

(** A continuation byte, 0x80..0xBF. *)
Definition cont (b : N) : bool := ((128 <=? b) && (b <=? 191))%N.

(** The range the second byte must lie in, by first byte ([acceptRanges]). *)
Definition second_lo (b0 : N) : N :=
  (if b0 =? 224 then 160 else if b0 =? 240 then 144 else 128)%N.
Definition second_hi (b0 : N) : N :=
  (if b0 =? 237 then 159 else if b0 =? 244 then 143 else 191)%N.

(** [utf8.DecodeRuneInString]: the first rune of [s] and its width in
    bytes; [(RuneError, 1)] for an invalid encoding, [(RuneError, 0)] for
    the empty string.  The masks and shifts of the Go code are written
    as the subtractions and products they amount to on the ranges
    checked. *)
Definition DecodeRuneInString (s : string) : N * nat :=
  match s with
  | EmptyString => (RuneError, 0)
  | String c0 r0 =>
      let b0 := bval c0 in
      if (b0 <? 128)%N then (b0, 1)
      else if ((b0 <? 194) || (244 <? b0))%N then (RuneError, 1)
      else
        match r0 with
        | EmptyString => (RuneError, 1)
        | String c1 r1 =>
            let b1 := bval c1 in
            if ((b1 <? second_lo b0) || (second_hi b0 <? b1))%N
            then (RuneError, 1)
            else if (b0 <? 224)%N
            then (((b0 - 192) * 64 + (b1 - 128))%N, 2)
            else
              match r1 with
              | EmptyString => (RuneError, 1)
              | String c2 r2 =>
                  let b2 := bval c2 in
                  if negb (cont b2) then (RuneError, 1)
                  else if (b0 <? 240)%N
                  then ((((b0 - 224) * 64 + (b1 - 128)) * 64 + (b2 - 128))%N, 3)
                  else
                    match r2 with
                    | EmptyString => (RuneError, 1)
                    | String c3 _ =>
                        let b3 := bval c3 in
                        if negb (cont b3) then (RuneError, 1)
                        else (((((b0 - 240) * 64 + (b1 - 128)) * 64
                                + (b2 - 128)) * 64 + (b3 - 128))%N, 4)
                    end
              end
        end
  end.

Definition bytes2 (a b : N) : string :=
  String (byte_of a) (String (byte_of b) EmptyString).
Definition bytes3 (a b c : N) : string := String (byte_of a) (bytes2 b c).
Definition bytes4 (a b c d : N) : string := String (byte_of a) (bytes3 b c d).

Definition surrogate (r : N) : bool := ((55296 <=? r) && (r <=? 57343))%N.

(** [utf8.AppendRune]: the UTF-8 encoding of a rune; a surrogate or a
    rune past [MaxRune] is encoded as [RuneError]. *)
Definition EncodeRune (r : N) : string :=
  (if r <=? 127 then str1 (byte_of r)
   else if r <=? 2047 then bytes2 (192 + r / 64) (128 + r mod 64)
   else if (MaxRune <? r) || surrogate r then bytes3 239 191 189
   else if r <=? 65535
   then bytes3 (224 + r / 4096) (128 + (r / 64) mod 64) (128 + r mod 64)
   else bytes4 (240 + r / 262144) (128 + (r / 4096) mod 64)
               (128 + (r / 64) mod 64) (128 + r mod 64))%N.



End Utf8.

(** ** Package encoding/json (Go standard library): the encoder *)

Module JsonEnc.

Definition hex_digit (n : N) : byte :=
  byte_of (if n <? 10 then 48 + n else 87 + n)%N.

(** The text of a Go integer in base ten ([strconv.AppendInt]). *)
Definition itoa (z : Z) : string := NilZero.string_of_int (Z.to_int z).

(** [htmlSafeSet]: the ASCII bytes the encoder copies as they are: the
    printable ones but the double quote, the backslash, and the three
    bytes that matter in HTML. *)
Definition htmlSafe (b : N) : bool :=
  ((32 <=? b) && (b <? 128)
   && negb ((b =? 34) || (b =? 38) || (b =? 60) || (b =? 62) || (b =? 92)))%N.

(** One ASCII byte inside a JSON string, as [appendString] writes it. *)
Definition escape_ascii (b : N) : string :=
  if htmlSafe b then str1 (byte_of b)
  else if (b =? 92)%N then "\\"
  else if (b =? 34)%N then "\" ++ DQ
  else if (b =? 8)%N then "\b"
  else if (b =? 12)%N then "\f"
  else if (b =? 10)%N then "\n"
  else if (b =? 13)%N then "\r"
  else if (b =? 9)%N then "\t"
  else "\u00" ++ str1 (hex_digit (b / 16)) ++ str1 (hex_digit (b mod 16)).

(** The escape of U+FFFD, which stands for a byte that is no UTF-8. *)
Definition replacement_escape : string := "\ufffd".

(** The inside of a JSON string for the Go string [s] ([appendString]
    with HTML escaping, which [json.Marshal] turns on): an invalid byte
    becomes the escape of U+FFFD, U+2028 and U+2029 are escaped, any other
    rune past ASCII is copied.  [skip] counts the bytes of the current
    rune still to be passed over, and [copy] says whether they are
    copied to the output. *)
Fixpoint escape_from (skip : nat) (copy : bool) (s : string) : string :=
  match s with
  | EmptyString => EmptyString
  | String c rest =>
      match skip with
      | S k =>
          if copy then String c (escape_from k copy rest)
          else escape_from k copy rest
      | O =>
          let b := bval c in
          if (b <? 128)%N then escape_ascii b ++ escape_from 0 true rest
          else
            let '(r, size) := Utf8.DecodeRuneInString s in
            if (r =? Utf8.RuneError)%N && (size =? 1)%nat
            then replacement_escape ++ escape_from 0 true rest
            else if ((r =? 8232) || (r =? 8233))%N
            then "\u202" ++ str1 (hex_digit (r mod 16))
                   ++ escape_from (size - 1) false rest
            else String c (escape_from (size - 1) true rest)
      end
  end.

Definition escape (s : string) : string := escape_from 0 true s.

(** A Go string as a JSON string. *)
Definition quote (s : string) : string := DQ ++ escape s ++ DQ.

End JsonEnc.

(** ** Package encoding/json (Go standard library): the scanner

    [json.Unmarshal] first runs the scanner of scanner.go over the whole
    input ([checkValid]) and then decodes the text it accepted.  The
    scanner is a state machine fed one byte at a time; it is modelled
    state by state, with the same error messages.  The model builds the
    parse tree in the same pass: each entry of the scanner's [parseState]
    stack carries the members or items read so far. *)

Module JsonScan.

(** The parse tree: object members in document order, repeated keys
    kept; a number is kept as its literal. *)
Inductive json : Type :=
| JNull
| JBool (b : bool)
| JNumber (lit : string)
| JString (s : string)
| JArray (items : list json)
| JObject (members : list (string * json)).

(** The step functions of scanner.go. *)
Inductive step_fn : Type :=
| stateBeginValueOrEmpty | stateBeginValue
| stateBeginStringOrEmpty | stateBeginString
| stateEndValue | stateEndTop
| stateInString | stateInStringEsc
| stateInStringEscU | stateInStringEscU1 | stateInStringEscU12
| stateInStringEscU123
| stateNeg | state1 | state0 | stateDot | stateDot0
| stateE | stateESign | stateE0
| stateT | stateTr | stateTru
| stateF | stateFa | stateFal | stateFals
| stateN | stateNu | stateNul
| stateError.

(** An entry of [parseState].  [parseObjectKey]: reading a key, or past
    it and before the colon.  [parseObjectValue]: past the colon; [key]
    is the key of the member being read or just read.
    [parseArrayValue]: inside an array. *)
Inductive frame : Type :=
| parseObjectKey (members : list (string * json))
| parseObjectValue (members : list (string * json)) (key : string)
| parseArrayValue (items : list json).

Record scanner : Type := mkScanner {
  step : step_fn;
  parseState : list frame;
  lit : string;          (* the bytes of the literal being read *)
  top : option json;     (* the top-level value, once complete *)
  err : option string;   (* the message of the SyntaxError *)
  endTop : bool
}.

Definition maxNestingDepth : N := 10000.

Definition phasePanicMsg : string :=
  "JSON decoder out of sync - data changing underfoot?".

Definition with_step (s : scanner) (f : step_fn) : scanner :=
  mkScanner f (parseState s) (lit s) (top s) (err s) (endTop s).

Definition with_lit (s : scanner) (l : string) : scanner :=
  mkScanner (step s) (parseState s) l (top s) (err s) (endTop s).

Definition with_stack (s : scanner) (ps : list frame) : scanner :=
  mkScanner (step s) ps (lit s) (top s) (err s) (endTop s).

(** Read byte [c] into the literal and go to step [f]. *)
Definition literal (s : scanner) (c : byte) (f : step_fn) : scanner :=
  mkScanner f (parseState s) (lit s ++ str1 c) (top s) (err s) (endTop s).

Definition hex2 (b : N) : string :=
  str1 (JsonEnc.hex_digit (b / 16)) ++ str1 (JsonEnc.hex_digit (b mod 16)).

(** [quoteChar]: the byte as the error messages show it, between single
    quotes, as [strconv.Quote] writes the rune of that value. *)
Definition quoteChar (c : byte) : string :=
  let b := bval c in
  if (b =? 39)%N then "'\''"
  else if (b =? 34)%N then "'" ++ DQ ++ "'"
  else
    "'" ++
    (if (b =? 92)%N then "\\"
     else if ((32 <=? b) && (b <? 127))%N then str1 c
     else if (b =? 7)%N then "\a"
     else if (b =? 8)%N then "\b"
     else if (b =? 12)%N then "\f"
     else if (b =? 10)%N then "\n"
     else if (b =? 13)%N then "\r"
     else if (b =? 9)%N then "\t"
     else if (b =? 11)%N then "\v"
     else if ((b <? 32) || (b =? 127))%N then "\x" ++ hex2 b
     else if ((b <=? 160) || (b =? 173))%N then "\u00" ++ hex2 b
     else Utf8.EncodeRune b)
    ++ "'".

(** [s.error(c, context)]. *)
Definition error (s : scanner) (c : byte) (context : string) : scanner :=
  mkScanner stateError (parseState s) (lit s) (top s)
    (Some ("invalid character " ++ quoteChar c ++ " " ++ context))
    (endTop s).

Definition fail_with (s : scanner) (msg : string) : scanner :=
  mkScanner stateError (parseState s) (lit s) (top s) (Some msg) (endTop s).

Definition isSpace (c : byte) : bool :=
  let b := bval c in
  ((b =? 32) || (b =? 9) || (b =? 13) || (b =? 10))%N.

Definition isDigit (c : byte) : bool :=
  ((48 <=? bval c) && (bval c <=? 57))%N.

Definition isHex (c : byte) : bool :=
  let b := bval c in
  ((48 <=? b) && (b <=? 57) || (97 <=? b) && (b <=? 102)
   || (65 <=? b) && (b <=? 70))%N.

Definition isb (c : byte) (k : string) : bool :=
  match k with
  | String a EmptyString => Ascii.eqb c a
  | _ => false
  end.

(** [s.pushParseState(c, newParseState, successState)]. *)
Definition pushParseState (s : scanner) (c : byte) (f : frame)
  (success : step_fn) : scanner :=
  let ps := f :: parseState s in
  if (N.of_nat (List.length ps) <=? maxNestingDepth)%N
  then mkScanner success ps (lit s) (top s) (err s) (endTop s)
  else error (with_stack s ps) c "exceeded max depth".

(** A value is complete: it joins the array or object being read, or it
    is the top-level value. *)
Definition deliver (s : scanner) (v : json) : scanner :=
  match parseState s with
  | [] =>
      mkScanner (step s) [] (lit s) (Some v) (err s) (endTop s)
  | parseArrayValue items :: ps =>
      with_stack s (parseArrayValue (items ++ [v])%list :: ps)
  | parseObjectValue members key :: ps =>
      with_stack s (parseObjectValue (members ++ [(key, v)])%list key :: ps)
  | parseObjectKey _ :: _ => s
  end.

(** [s.popParseState()], the finished array or object delivered. *)
Definition popParseState (s : scanner) (v : json) : scanner :=
  match parseState s with
  | [] => s
  | _ :: ps =>
      let s1 := deliver (with_stack s ps) v in
      match ps with
      | [] => mkScanner stateEndTop (parseState s1) (lit s1) (top s1)
                (err s1) true
      | _ => with_step s1 stateEndValue
      end
  end.

(** [utf16.DecodeRune] on the two halves of a surrogate pair. *)
Definition utf16_DecodeRune (r1 r2 : N) : N :=
  (if (55296 <=? r1) && (r1 <? 56320) && (56320 <=? r2) && (r2 <? 57344)
   then (r1 - 55296) * 1024 + (r2 - 56320) + 65536
   else Utf8.RuneError)%N.

Definition hex_val (c : byte) : option N :=
  let b := bval c in
  (if (48 <=? b) && (b <=? 57) then Some (b - 48)
   else if (97 <=? b) && (b <=? 102) then Some (b - 87)
   else if (65 <=? b) && (b <=? 70) then Some (b - 55)
   else None)%N.

(** [getu4]: the rune of a backslash-u escape at the front of [s]. *)
Definition getu4 (s : string) : option N :=
  match s with
  | String b (String u (String h1 (String h2 (String h3 (String h4 _))))) =>
      if isb b "\" && isb u "u" then
        match hex_val h1, hex_val h2, hex_val h3, hex_val h4 with
        | Some a, Some b, Some c, Some d =>
            Some (((a * 16 + b) * 16 + c) * 16 + d)%N
        | _, _, _, _ => None
        end
      else None
  | _ => None
  end.

Definition cons_to (c : byte) (r : option string) : option string :=
  option_map (String c) r.

Definition append_to (p : string) (r : option string) : option string :=
  option_map (fun t => p ++ t) r.

(** [unquoteBytes] on the inside of a string literal: the escapes are
    read, and the bytes past ASCII are decoded and encoded again, which
    turns an invalid byte into U+FFFD.  [None] is the [ok = false] of
    the Go function.  [skip] counts the bytes of the current escape or
    rune still to be passed over. *)
Fixpoint unquote_from (skip : nat) (s : string) : option string :=
  match s with
  | EmptyString => Some EmptyString
  | String c rest =>
      match skip with
      | S k => unquote_from k rest
      | O =>
          if isb c "\" then
            match rest with
            | EmptyString => None
            | String e _ =>
                if Ascii.eqb e dq || isb e "\" || isb e "/" || isb e "'"
                then cons_to e (unquote_from 1 rest)
                else if isb e "b" then cons_to (byte_of 8) (unquote_from 1 rest)
                else if isb e "f" then cons_to (byte_of 12) (unquote_from 1 rest)
                else if isb e "n" then cons_to (byte_of 10) (unquote_from 1 rest)
                else if isb e "r" then cons_to (byte_of 13) (unquote_from 1 rest)
                else if isb e "t" then cons_to (byte_of 9) (unquote_from 1 rest)
                else if isb e "u" then
                  match getu4 s with
                  | None => None
                  | Some rr =>
                      if Utf8.surrogate rr then
                        let dec :=
                          match getu4 (drop 6 s) with
                          | Some rr1 => utf16_DecodeRune rr rr1
                          | None => Utf8.RuneError
                          end in
                        if negb (dec =? Utf8.RuneError)%N
                        then append_to (Utf8.EncodeRune dec)
                               (unquote_from 11 rest)
                        else append_to (Utf8.EncodeRune Utf8.RuneError)
                               (unquote_from 5 rest)
                      else append_to (Utf8.EncodeRune rr) (unquote_from 5 rest)
                  end
                else None
            end
          else if Ascii.eqb c dq || (bval c <? 32)%N then None
          else if (bval c <? 128)%N then cons_to c (unquote_from 0 rest)
          else
            let '(rr, size) := Utf8.DecodeRuneInString s in
            append_to (Utf8.EncodeRune rr) (unquote_from (size - 1) rest)
      end
  end.

Definition unquote (s : string) : option string := unquote_from 0 s.

(** The literal read so far is a complete value. *)
Definition end_literal (s : scanner) (v : json) : scanner :=
  with_lit (deliver s v) EmptyString.

Definition fnStateEndTop (s : scanner) (c : byte) : scanner :=
  if isSpace c then s else error s c "after top-level value".

Definition fnStateEndValue (s : scanner) (c : byte) : scanner :=
  match parseState s with
  | [] =>
      fnStateEndTop
        (mkScanner stateEndTop [] (lit s) (top s) (err s) true) c
  | f :: ps =>
      if isSpace c then with_step s stateEndValue
      else
        match f with
        | parseObjectKey members =>
            if isb c ":" then
              match unquote (lit s) with
              | Some key =>
                  mkScanner stateBeginValue
                    (parseObjectValue members key :: ps) EmptyString
                    (top s) (err s) (endTop s)
              | None => fail_with s phasePanicMsg
              end
            else error s c "after object key"
        | parseObjectValue members _ =>
            if isb c "," then
              mkScanner stateBeginString (parseObjectKey members :: ps)
                (lit s) (top s) (err s) (endTop s)
            else if isb c "}" then popParseState s (JObject members)
            else error s c "after object key:value pair"
        | parseArrayValue items =>
            if isb c "," then with_step s stateBeginValue
            else if isb c "]" then popParseState s (JArray items)
            else error s c "after array element"
        end
  end.

Definition fnStateBeginValue (s : scanner) (c : byte) : scanner :=
  if isSpace c then s
  else if isb c "{" then
    pushParseState s c (parseObjectKey []) stateBeginStringOrEmpty
  else if isb c "[" then
    pushParseState s c (parseArrayValue []) stateBeginValueOrEmpty
  else if Ascii.eqb c dq then with_lit (with_step s stateInString) EmptyString
  else if isb c "-" then literal (with_lit s EmptyString) c stateNeg
  else if isb c "0" then literal (with_lit s EmptyString) c state0
  else if isb c "t" then with_step s stateT
  else if isb c "f" then with_step s stateF
  else if isb c "n" then with_step s stateN
  else if isDigit c then literal (with_lit s EmptyString) c state1
  else error s c "looking for beginning of value".

Definition fnStateBeginValueOrEmpty (s : scanner) (c : byte) : scanner :=
  if isSpace c then s
  else if isb c "]" then fnStateEndValue s c
  else fnStateBeginValue s c.

Definition fnStateBeginString (s : scanner) (c : byte) : scanner :=
  if isSpace c then s
  else if Ascii.eqb c dq then with_lit (with_step s stateInString) EmptyString
  else error s c "looking for beginning of object key string".

Definition fnStateBeginStringOrEmpty (s : scanner) (c : byte) : scanner :=
  if isSpace c then s
  else if isb c "}" then
    match parseState s with
    | parseObjectKey members :: ps =>
        fnStateEndValue
          (with_stack s (parseObjectValue members EmptyString :: ps)) c
    | _ => fnStateEndValue s c
    end
  else fnStateBeginString s c.

(** The closing quote: a string value is delivered; an object key stays
    in [lit] until its colon. *)
Definition fnStateInString (s : scanner) (c : byte) : scanner :=
  if Ascii.eqb c dq then
    match parseState s with
    | parseObjectKey _ :: _ => with_step s stateEndValue
    | _ =>
        match unquote (lit s) with
        | Some t => end_literal (with_step s stateEndValue) (JString t)
        | None => fail_with s phasePanicMsg
        end
    end
  else if isb c "\" then literal s c stateInStringEsc
  else if (bval c <? 32)%N then error s c "in string literal"
  else literal s c stateInString.

Definition fnStateInStringEsc (s : scanner) (c : byte) : scanner :=
  if isb c "b" || isb c "f" || isb c "n" || isb c "r" || isb c "t"
     || isb c "\" || isb c "/" || Ascii.eqb c dq
  then literal s c stateInString
  else if isb c "u" then literal s c stateInStringEscU
  else error s c "in string escape code".

Definition hex_step (s : scanner) (c : byte) (next : step_fn) : scanner :=
  if isHex c then literal s c next
  else error s c "in \u hexadecimal character escape".

(** A number ends at the first byte that cannot continue it; that byte
    is then read by [stateEndValue]. *)
Definition end_number (s : scanner) (c : byte) : scanner :=
  fnStateEndValue (end_literal s (JNumber (lit s))) c.

Definition fnState0 (s : scanner) (c : byte) : scanner :=
  if isb c "." then literal s c stateDot
  else if isb c "e" || isb c "E" then literal s c stateE
  else end_number s c.

Definition fnState1 (s : scanner) (c : byte) : scanner :=
  if isDigit c then literal s c state1 else fnState0 s c.

Definition fnStateNeg (s : scanner) (c : byte) : scanner :=
  if isb c "0" then literal s c state0
  else if isDigit c then literal s c state1
  else error s c "in numeric literal".

Definition fnStateDot (s : scanner) (c : byte) : scanner :=
  if isDigit c then literal s c stateDot0
  else error s c "after decimal point in numeric literal".

Definition fnStateDot0 (s : scanner) (c : byte) : scanner :=
  if isDigit c then literal s c stateDot0
  else if isb c "e" || isb c "E" then literal s c stateE
  else end_number s c.

Definition fnStateESign (s : scanner) (c : byte) : scanner :=
  if isDigit c then literal s c stateE0
  else error s c "in exponent of numeric literal".

Definition fnStateE (s : scanner) (c : byte) : scanner :=
  if isb c "+" || isb c "-" then literal s c stateESign
  else fnStateESign s c.

Definition fnStateE0 (s : scanner) (c : byte) : scanner :=
  if isDigit c then literal s c stateE0 else end_number s c.

(** One letter of [true], [false] or [null]. *)
Definition letter (s : scanner) (c : byte) (want : string) (next : step_fn)
  (context : string) : scanner :=
  if isb c want then with_step s next else error s c context.

Definition last_letter (s : scanner) (c : byte) (want : string) (v : json)
  (context : string) : scanner :=
  if isb c want then end_literal (with_step s stateEndValue) v
  else error s c context.

(** [s.step(s, c)]. *)
Definition scan_byte (s : scanner) (c : byte) : scanner :=
  match step s with
  | stateBeginValueOrEmpty => fnStateBeginValueOrEmpty s c
  | stateBeginValue => fnStateBeginValue s c
  | stateBeginStringOrEmpty => fnStateBeginStringOrEmpty s c
  | stateBeginString => fnStateBeginString s c
  | stateEndValue => fnStateEndValue s c
  | stateEndTop => fnStateEndTop s c
  | stateInString => fnStateInString s c
  | stateInStringEsc => fnStateInStringEsc s c
  | stateInStringEscU => hex_step s c stateInStringEscU1
  | stateInStringEscU1 => hex_step s c stateInStringEscU12
  | stateInStringEscU12 => hex_step s c stateInStringEscU123
  | stateInStringEscU123 => hex_step s c stateInString
  | stateNeg => fnStateNeg s c
  | state1 => fnState1 s c
  | state0 => fnState0 s c
  | stateDot => fnStateDot s c
  | stateDot0 => fnStateDot0 s c
  | stateE => fnStateE s c
  | stateESign => fnStateESign s c
  | stateE0 => fnStateE0 s c
  | stateT => letter s c "r" stateTr "in literal true (expecting 'r')"
  | stateTr => letter s c "u" stateTru "in literal true (expecting 'u')"
  | stateTru =>
      last_letter s c "e" (JBool true) "in literal true (expecting 'e')"
  | stateF => letter s c "a" stateFa "in literal false (expecting 'a')"
  | stateFa => letter s c "l" stateFal "in literal false (expecting 'l')"
  | stateFal => letter s c "s" stateFals "in literal false (expecting 's')"
  | stateFals =>
      last_letter s c "e" (JBool false) "in literal false (expecting 'e')"
  | stateN => letter s c "u" stateNu "in literal null (expecting 'u')"
  | stateNu => letter s c "l" stateNul "in literal null (expecting 'l')"
  | stateNul =>
      last_letter s c "l" JNull "in literal null (expecting 'l')"
  | stateError => s
  end.

Fixpoint scan (s : scanner) (data : string) : scanner :=
  match data with
  | EmptyString => s
  | String c rest => scan (scan_byte s c) rest
  end.

(** [scan.reset()]. *)
Definition reset : scanner :=
  mkScanner stateBeginValue [] EmptyString None None false.

(** [scan.eof()]: the error it leaves, if any. *)
Definition eof (s : scanner) : scanner :=
  match err s with
  | Some _ => s
  | None =>
      if endTop s then s
      else
        let s1 := scan_byte s " "%char in
        if endTop s1 then s1
        else
          match err s1 with
          | Some _ => s1
          | None => fail_with s1 "unexpected end of JSON input"
          end
  end.

(** [checkValid] and the parse tree of the accepted text: the tree, or
    the message of the [*json.SyntaxError]. *)
Definition parse (data : string) : json + string :=
  let s := eof (scan reset data) in
  match err s, top s with
  | Some msg, _ => inr msg
  | None, Some v => inl v
  | None, None => inr phasePanicMsg
  end.

End JsonScan.

(** ** Go error values

    An [error] that reaches this code from outside is observed in two
    ways only: through its [Error()] text, and through what [json.Marshal]
    makes of it when it is the detail of a record. *)

Inductive error : Type :=
| errors_New (text : string)
    (* errors.New(text): a pointer to a struct with no exported field
       and no MarshalJSON method *)
| customError (text : string) (marshalled : option string).
    (* any other error value: its Error() text, and the compact JSON text
       json.Marshal returns for it, or None when marshalling it fails *)

Definition error_Error (e : error) : string :=
  match e with
  | errors_New text => text
  | customError text _ => text
  end.

(** [json.Marshal] of the value an [error] interface holds. *)
Definition marshal_error (e : error) : option string :=
  match e with
  | errors_New _ => Some "{}"
  | customError _ marshalled => marshalled
  end.

(** ** Package errors (errors.go and the factory) *)

Module Errors.

(** Internal error codes ([iota + 1]). *)
Definition CodeInternal : Z := 1.
Definition CodeInvalidArgument : Z := 3.
Definition CodePreconditionFailed : Z := 4.

(** [type ErrorKind string]. *)
Definition ErrorKind : Type := string.

Definition KindValidation : ErrorKind := "ValidationError".
Definition KindInternal : ErrorKind := "InternalError".
Definition KindPrecondition : ErrorKind := "ConditionError".

(** [type Error struct]; [Code] is an [int32]. *)
Record Error : Type := mkError {
  Code : Z;
  ServiceName : string;
  Message : string;
  Destination : string;
  Kind : ErrorKind;
  SublevelError : option error;
  hideDetails : bool
}.

(** A member of a JSON object: a comma, the key, a colon, the value. *)
Definition member (key value : string) : string :=
  "," ++ JsonEnc.quote key ++ ":" ++ value.

(** A string field tagged [omitempty]. *)
Definition omitempty (key value : string) : string :=
  match value with
  | EmptyString => EmptyString
  | _ => member key (JsonEnc.quote value)
  end.

(** [json.Marshal] of an [Error] value, following the struct tags:
    [code] and [kind] are always written, the other fields are left out
    when empty; [details] is the encoding of the value the interface
    holds.  [None] when that value cannot be marshalled. *)
Definition Marshal (e : Error) : option string :=
  let fields :=
    "{" ++ JsonEnc.quote "code" ++ ":" ++ JsonEnc.itoa (Code e)
    ++ omitempty "service_name" (ServiceName e)
    ++ omitempty "message" (Message e)
    ++ omitempty "destination" (Destination e)
    ++ member "kind" (JsonEnc.quote (Kind e)) in
  match SublevelError e with
  | None => Some (fields ++ "}")
  | Some d =>
      match marshal_error d with
      | Some text => Some (fields ++ member "details" text ++ "}")
      | None => None
      end
  end.

(** The value [out] that [String] builds and marshals. *)
Definition String_out (e : Error) : Error :=
  let out := {| Code := Code e;
                ServiceName := EmptyString;
                Message := Message e;
                Destination := Destination e;
                Kind := Kind e;
                SublevelError := None;
                hideDetails := false |} in
  if negb (hideDetails e) then
    {| Code := Code out;
       ServiceName := ServiceName e;
       Message := Message out;
       Destination := Destination e;
       Kind := Kind out;
       SublevelError := SublevelError e;
       hideDetails := hideDetails out |}
  else out.

(** [func (e *Error) String() string]: the error of [json.Marshal] is
    dropped, which leaves the empty string. *)
Definition Error_String (e : Error) : string :=
  match Marshal (String_out e) with
  | Some b => b
  | None => EmptyString
  end.

(** [func (e *Error) Error() string]. *)
Definition Error_Error (e : Error) : string := Error_String e.

(** The log levels of the logger methods the factory hands over. *)
Inductive level : Type := Info | Warn | Error_level.

(** [logger.Attribute]: a key and a value. *)
Definition Attribute : Type := (string * string)%type.

(** A call of the logging function, as the sink receives it. *)
Record log_call : Type := mkLog {
  log_level : level;
  log_msg : string;
  log_attrs : list Attribute
}.

(** [type ServiceError struct]. *)
Record ServiceError : Type := mkServiceError {
  err : Error;
  attributes : list Attribute;
  logger : option level
}.

Record serviceErrorOptions : Type := mkOptions {
  opt_HideDetails : bool;
  opt_Code : Z;
  opt_Kind : ErrorKind;
  opt_ServiceName : string;
  opt_Message : string;
  opt_Destination : string;
  opt_Logger : option level;
  opt_Error : option error
}.

Definition newServiceError (options : serviceErrorOptions) : ServiceError :=
  {| err := {| hideDetails := opt_HideDetails options;
               Code := opt_Code options;
               ServiceName := opt_ServiceName options;
               Message := opt_Message options;
               Destination := opt_Destination options;
               Kind := opt_Kind options;
               SublevelError := opt_Error options |};
     attributes := [];
     logger := opt_Logger options |}.



Definition WithAttributes (s : ServiceError) (attrs : list Attribute)
  : ServiceError :=
  {| err := err s; attributes := attrs; logger := logger s |}.

Definition withKind (kind : ErrorKind) : Attribute := ("error.kind", kind).

(** [logger.Error(err)]. *)
Definition logger_Error (e : error) : Attribute :=
  ("error.message", error_Error e).

(** [Submit]: the calls the logging function receives, and the [*Error]
    handed back as an [error]. *)
Definition Submit (s : ServiceError) : list log_call * Error :=
  let logs :=
    match logger s with
    | Some lvl =>
        let logFields := [withKind (Kind (err s))] in
        let logFields :=
          match SublevelError (err s) with
          | Some d => (logFields ++ [logger_Error d])%list
          | None => logFields
          end in
        [ {| log_level := lvl;
             log_msg := Message (err s);
             log_attrs := (logFields ++ attributes s)%list |} ]
    | None => []
    end in
  (logs, err s).

(** [type Factory struct]; the logger is the sink of the three levels. *)
Record Factory : Type := mkFactory {
  hideMessageDetails : bool;
  serviceName : string
}.

Definition InvalidArgument (f : Factory) (e : option error) : ServiceError :=
  newServiceError
    {| opt_HideDetails := hideMessageDetails f;
       opt_Code := CodeInvalidArgument;
       opt_Kind := KindValidation;
       opt_ServiceName := serviceName f;
       opt_Message := "request validation failed";
       opt_Destination := EmptyString;
       opt_Logger := Some Warn;
       opt_Error := e |}.

Definition FailedPrecondition (f : Factory) (message : string) : ServiceError :=
  newServiceError
    {| opt_HideDetails := hideMessageDetails f;
       opt_Code := CodePreconditionFailed;
       opt_Kind := KindPrecondition;
       opt_ServiceName := serviceName f;
       opt_Message := "failed precondition";
       opt_Destination := EmptyString;
       opt_Logger := Some Warn;
       opt_Error := Some (errors_New message) |}.


Definition Internal (f : Factory) (e : option error) : ServiceError :=
  newServiceError
    {| opt_HideDetails := hideMessageDetails f;
       opt_Code := CodeInternal;
       opt_Kind := KindInternal;
       opt_ServiceName := serviceName f;
       opt_Message := "got an internal error";
       opt_Destination := EmptyString;
       opt_Logger := Some Error_level;
       opt_Error := e |}.


End Errors.

(** ** Package encoding/json: decoding into Go values

    A JSON number that lands in an [interface{}] becomes a [float64].
    Binary floating point is not modelled: the decoder and the encoder
    take [float64_text], which gives, for a JSON number literal, the text
    the encoder prints for the [float64] that [strconv.ParseFloat] reads
    from it, or [None] when [ParseFloat] reports the literal out of
    range. *)

Module JsonDec.

Import JsonScan.

(** What [json.Unmarshal] stores in an [interface{}]: nil, bool,
    float64 (as its text), string, [[]interface{}], and
    [map[string]interface{}] as an association list sorted by key with
    no key twice, the order in which the encoder writes a map. *)
Inductive value : Type :=
| VNil
| VBool (b : bool)
| VFloat64 (text : string)
| VString (s : string)
| VSlice (items : list value)
| VMap (entries : list (string * value)).

(** The errors of [json.Unmarshal]. *)
Inductive UnmarshalError : Type :=
| SyntaxError (msg : string)
| UnmarshalTypeError (Value Type_ Struct Field : string).

(** Their [Error()] methods. *)
Definition UnmarshalError_Error (e : UnmarshalError) : string :=
  match e with
  | SyntaxError msg => msg
  | UnmarshalTypeError v t st f =>
      match st, f with
      | EmptyString, EmptyString =>
          "json: cannot unmarshal " ++ v ++ " into Go value of type " ++ t
      | _, _ =>
          "json: cannot unmarshal " ++ v ++ " into Go struct field "
            ++ st ++ "." ++ f ++ " of type " ++ t
      end
  end.

(** [m[key] = v] on the sorted association list. *)
Fixpoint map_set (key : string) (v : value) (m : list (string * value))
  : list (string * value) :=
  match m with
  | [] => [(key, v)]
  | (k, w) :: rest =>
      match String.compare key k with
      | Lt => (key, v) :: m
      | Eq => (key, v) :: rest
      | Gt => (k, w) :: map_set key v rest
      end
  end.

(** The first error met is the one kept ([d.saveError]). *)
Definition saveError (saved : option UnmarshalError) (e : option UnmarshalError)
  : option UnmarshalError :=
  match saved with
  | Some _ => saved
  | None => e
  end.

Section Float64.

Variable float64_text : string -> option string.

(** [d.valueInterface]: the Go value for a parse tree, and the first
    number that is out of range, if any.  [st] and [f] name the struct
    field the value is decoded for. *)
Fixpoint valueInterface (st f : string) (j : json)
  : value * option UnmarshalError :=
  match j with
  | JNull => (VNil, None)
  | JBool b => (VBool b, None)
  | JNumber l =>
      match float64_text l with
      | Some text => (VFloat64 text, None)
      | None =>
          (VNil, Some (UnmarshalTypeError ("number " ++ l) "float64" st f))
      end
  | JString s => (VString s, None)
  | JArray items =>
      let step acc item :=
        let '(vs, e) := acc in
        let '(v, e1) := valueInterface st f item in
        ((vs ++ [v])%list, saveError e e1) in
      let '(vs, e) := fold_left step items ([], None) in
      (VSlice vs, e)
  | JObject members =>
      let step acc (m : string * json) :=
        let '(entries, e) := acc in
        let '(v, e1) := valueInterface st f (snd m) in
        (map_set (fst m) v entries, saveError e e1) in
      let '(entries, e) := fold_left step members ([], None) in
      (VMap entries, e)
  end.

(** The encoder on such a value. *)
Fixpoint Marshal_value (v : value) : string :=
  match v with
  | VNil => "null"
  | VBool true => "true"
  | VBool false => "false"
  | VFloat64 text => text
  | VString s => JsonEnc.quote s
  | VSlice items =>
      "[" ++ String.concat "," (List.map Marshal_value items) ++ "]"
  | VMap entries =>
      "{" ++ String.concat ","
               (List.map (fun kv => JsonEnc.quote (fst kv) ++ ":"
                                    ++ Marshal_value (snd kv)) entries)
          ++ "}"
  end.

End Float64.

(** What a JSON value is called in an [UnmarshalTypeError]. *)
Definition type_name (j : json) : string :=
  match j with
  | JNull => "null"
  | JBool _ => "bool"
  | JNumber _ => "number"
  | JString _ => "string"
  | JArray _ => "array"
  | JObject _ => "object"
  end.

(** A number literal for an [int32] field: [strconv.ParseInt] must read
    it, so it holds digits only after an optional minus sign, and the
    value must fit. *)
Definition parse_int32 (l : string) : option Z :=
  match NilZero.int_of_string l with
  | Some d =>
      let z := Z.of_int d in
      if ((-2147483648 <=? z) && (z <=? 2147483647))%Z then Some z else None
  | None => None
  end.

(** [foldName]: ASCII letters in upper case; the two runes past ASCII
    whose case folding reaches an ASCII letter, U+212A (Kelvin sign)
    and U+017F (long s), become [K] and [S]. *)
Fixpoint foldName (s : string) : string :=
  match s with
  | EmptyString => EmptyString
  | String c rest =>
      let b := bval c in
      if ((97 <=? b) && (b <=? 122))%N
      then String (byte_of (b - 32)) (foldName rest)
      else
        match rest with
        | String c1 rest1 =>
            if ((b =? 197) && (bval c1 =? 191))%N
            then String "S"%char (foldName rest1)
            else
              match rest1 with
              | String c2 rest2 =>
                  if ((b =? 226) && (bval c1 =? 132) && (bval c2 =? 170))%N
                  then String "K"%char (foldName rest2)
                  else String c (foldName rest)
              | EmptyString => String c (foldName rest)
              end
        | EmptyString => String c (foldName rest)
        end
  end.

(** The field a key selects: the one of that exact name, or else the
    first whose folded name is the folded key. *)
Definition find_field (names : list string) (key : string) : option string :=
  match List.find (String.eqb key) names with
  | Some n => Some n
  | None =>
      List.find (fun n => String.eqb (foldName n) (foldName key)) names
  end.

End JsonDec.

(** ** Package response: service.go *)

Module Service.

Import JsonScan JsonDec Validation.

Definition StatusBadRequest : Z := 400.
Definition StatusUnauthorized : Z := 401.
Definition StatusNotFound : Z := 404.
Definition StatusPreconditionFailed : Z := 412.
Definition StatusInternalServerError : Z := 500.

Definition knownServiceErrors : list string :=
  ["ValidationError"; "InternalError"; "NotFoundError"; "ConditionError";
   "PermissionError"].

(** [type serviceError struct]; [Code] is an [int32], [SublevelError] an
    [interface{}]. *)
Record serviceError : Type := mkServiceErr {
  Code : Z;
  ServiceName : string;
  Message : string;
  Destination : string;
  Kind : string;
  SublevelError : value
}.

Definition zero_serviceError : serviceError :=
  mkServiceErr 0 EmptyString EmptyString EmptyString EmptyString VNil.

(** The JSON names of the fields, in the order of the struct. *)
Definition field_names : list string :=
  ["code"; "service_name"; "message"; "destination"; "kind"; "details"].

Definition type_error (j : json) (ty field : string) : option UnmarshalError :=
  Some (UnmarshalTypeError (type_name j) ty "serviceError" field).

(** A JSON value stored into a string field: [null] leaves the field
    as it is. *)
Definition store_string (field : string) (j : json) (cur : string)
  : string * option UnmarshalError :=
  match j with
  | JString s => (s, None)
  | JNull => (cur, None)
  | _ => (cur, type_error j "string" field)
  end.

Definition store_int32 (field : string) (j : json) (cur : Z)
  : Z * option UnmarshalError :=
  match j with
  | JNumber l =>
      match parse_int32 l with
      | Some z => (z, None)
      | None =>
          (cur, Some (UnmarshalTypeError ("number " ++ l) "int32"
                        "serviceError" field))
      end
  | JNull => (cur, None)
  | _ => (cur, type_error j "int32" field)
  end.

Section Float64.

Variable float64_text : string -> option string.

(** One member of the top-level object stored into the struct. *)
Definition store_member (acc : serviceError * option UnmarshalError)
  (m : string * json) : serviceError * option UnmarshalError :=
  let '(e, saved) := acc in
  let j := snd m in
  match find_field field_names (fst m) with
  | None => acc
  | Some f =>
      if String.eqb f "code" then
        let '(z, er) := store_int32 f j (Code e) in
        (mkServiceErr z (ServiceName e) (Message e) (Destination e)
           (Kind e) (SublevelError e), saveError saved er)
      else if String.eqb f "service_name" then
        let '(s, er) := store_string f j (ServiceName e) in
        (mkServiceErr (Code e) s (Message e) (Destination e)
           (Kind e) (SublevelError e), saveError saved er)
      else if String.eqb f "message" then
        let '(s, er) := store_string f j (Message e) in
        (mkServiceErr (Code e) (ServiceName e) s (Destination e)
           (Kind e) (SublevelError e), saveError saved er)
      else if String.eqb f "destination" then
        let '(s, er) := store_string f j (Destination e) in
        (mkServiceErr (Code e) (ServiceName e) (Message e) s
           (Kind e) (SublevelError e), saveError saved er)
      else if String.eqb f "kind" then
        let '(s, er) := store_string f j (Kind e) in
        (mkServiceErr (Code e) (ServiceName e) (Message e) (Destination e)
           s (SublevelError e), saveError saved er)
      else
        let '(v, er) := valueInterface float64_text "serviceError" f j in
        (mkServiceErr (Code e) (ServiceName e) (Message e) (Destination e)
           (Kind e) v, saveError saved er)
  end.

(** [json.Unmarshal([]byte(s), &e)] on a zero [serviceError]. *)
Definition Unmarshal (s : string) : serviceError * option UnmarshalError :=
  match parse s with
  | inr msg => (zero_serviceError, Some (SyntaxError msg))
  | inl (JObject members) =>
      fold_left store_member members (zero_serviceError, None)
  | inl JNull => (zero_serviceError, None)
  | inl j =>
      (zero_serviceError,
       Some (UnmarshalTypeError (type_name j) "response.serviceError"
               EmptyString EmptyString))
  end.

(** [serviceErrorFromString(s)]: the pointer and the error. *)
Definition serviceErrorFromString (s : string)
  : option serviceError * option UnmarshalError :=
  match Unmarshal s with
  | (_, Some err) => (None, Some err)
  | (e, None) => (Some e, None)
  end.

End Float64.

(** [IsKnownError]. *)
Definition IsKnownError (s : serviceError) : bool :=
  existsb (String.eqb (Kind s)) knownServiceErrors.

(** [ResponseCode]. *)
Definition ResponseCode (s : serviceError) : Z :=
  if String.eqb (Kind s) "ValidationError" then StatusBadRequest
  else if String.eqb (Kind s) "NotFoundError" then StatusNotFound
  else if String.eqb (Kind s) "ConditionError" then StatusPreconditionFailed
  else if String.eqb (Kind s) "PermissionError" then StatusUnauthorized
  else StatusInternalServerError.

(** [type responseError struct]. *)
Record responseError : Type := mkResponseError {
  re_Code : Z;
  re_Source : string;
  re_Message : string;
  re_Details : string;
  re_Destination : string;
  re_Fields : list Field
}.

Definition invalidJsonBodyMsg : string := "invalid json body".
Definition invalidValueFieldJsonMsg : string := "invalid value for json field".
Definition internalServerErrorMsg : string := "internal service error".

(** [newResponseError(options)]: the options have the same fields. *)
Definition newResponseError (options : responseError) : responseError :=
  {| re_Code := re_Code options;
     re_Source := re_Source options;
     re_Message := re_Message options;
     re_Details := re_Details options;
     re_Destination := re_Destination options;
     re_Fields := re_Fields options |}.

(** [s[1 : len(s)-1]]. *)
Definition slice_inside (s : string) : outcome string :=
  if (String.length s <? 2)%nat then Panic "slice bounds out of range"
  else Ret (take (String.length s - 2) (drop 1 s)).

(** [ToResponseError]. *)
Definition ToResponseError (float64_text : string -> option string)
  (s : serviceError) : outcome responseError :=
  let opt := {| re_Code := Code s;
                re_Source := ServiceName s;
                re_Message := Message s;
                re_Details := EmptyString;
                re_Destination := Destination s;
                re_Fields := [] |} in
  opt <-
    (match SublevelError s with
     | VNil => Ret opt
     | d =>
         if String.eqb (Kind s) "ValidationError" then
           let b := Marshal_value d in
           err <- slice_inside b ;;
           fields <- newValidationErrorFields err ;;
           Ret {| re_Code := re_Code opt;
                  re_Source := re_Source opt;
                  re_Message := re_Message opt;
                  re_Details := re_Details opt;
                  re_Destination := re_Destination opt;
                  re_Fields := fields |}
         else Ret opt
     end) ;;
  Ret (newResponseError opt).

(** The encoder on a struct whose fields are all tagged [omitempty]:
    the members that are present, between braces. *)
Definition object (members : list string) : string :=
  "{" ++ String.concat "," members ++ "}".

Definition string_member (key value : string) : list string :=
  match value with
  | EmptyString => []
  | _ => [JsonEnc.quote key ++ ":" ++ JsonEnc.quote value]
  end.

Definition Marshal_Field (f : Field) : string :=
  object (List.concat [string_member "field" (Field_Field f);
                       string_member "message" (Field_Message f);
                       string_member "location" (Field_Location f)]).

Definition int_member (key : string) (z : Z) : list string :=
  if (z =? 0)%Z then [] else [JsonEnc.quote key ++ ":" ++ JsonEnc.itoa z].

Definition fields_member (key : string) (fs : list Field) : list string :=
  match fs with
  | [] => []
  | _ => [JsonEnc.quote key ++ ":" ++ "["
          ++ String.concat "," (List.map Marshal_Field fs) ++ "]"]
  end.

(** [json.Marshal] of a [*responseError]: it cannot fail. *)
Definition Marshal_responseError (r : responseError) : string :=
  object (List.concat [int_member "code" (re_Code r);
                       string_member "source" (re_Source r);
                       string_member "message" (re_Message r);
                       string_member "details" (re_Details r);
                       string_member "destination" (re_Destination r);
                       fields_member "fields" (re_Fields r)]).

(** [jsonError(err)]: the type switch on the two decoder errors. *)
Definition jsonError (err : option UnmarshalError) : option responseError :=
  match err with
  | Some (SyntaxError _) =>
      Some {| re_Code := 0; re_Source := EmptyString;
              re_Message := invalidJsonBodyMsg;
              re_Details := EmptyString; re_Destination := EmptyString;
              re_Fields := [] |}
  | Some (UnmarshalTypeError _ _ _ f) =>
      Some {| re_Code := 0; re_Source := EmptyString;
              re_Message := invalidValueFieldJsonMsg;
              re_Details := "unexpected value for field '" ++ f ++ "'";
              re_Destination := EmptyString;
              re_Fields := [] |}
  | None => None
  end.

End Service.

(** ** Package response: response.go

    The two HTTP runtimes are outside the repository.  A fasthttp
    request context is modelled by its user values and by what the calls
    made on its response leave there; an echo context by the headers set
    and by the calls of its [JSON] method, whose returned error is the
    runtime's. *)

Module Response.

Import JsonDec Service.

Definition customHeaderPrefix : string := "handler-attribute-".
Definition customResponseCode : string := "handler-response-code".

(** A value stored by [SetUserValue]: an [int], a [string], or a value
    of another type. *)
Inductive uservalue : Type :=
| UVInt (n : Z)
| UVString (s : string)
| UVOther.

(** [*fasthttp.RequestCtx]. *)
Record RequestCtx : Type := mkRequestCtx {
  userValues : list (string * uservalue);  (* in the order they are visited *)
  requestContentType : string;             (* the request's Content-Type *)
  resp_headers : list (string * string);   (* Response.Header.Set calls *)
  resp_status : option Z;                  (* Response.SetStatusCode *)
  resp_contentType : option string;        (* Response.Header.SetContentType *)
  resp_body : option string                (* Response.SetBodyRaw *)
}.

(** [echo.Context]. *)
Record EchoCtx : Type := mkEchoCtx {
  echo_headers : list (string * string);   (* Response().Header().Set calls *)
  echo_JSON : list (Z * string);           (* JSON(code, bytes) calls *)
  echo_JSON_error : option error           (* what JSON returns *)
}.

(** The dynamic type of [Response.ctx]. *)
Inductive context : Type :=
| ctxFasthttp (c : RequestCtx)
| ctxEcho (c : EchoCtx)
| ctxOther.

(** [type Response struct]. *)
Record Response : Type := mkResponse {
  customCode : Z;
  serviceName : string;
  contentType : string;
  ctx : context
}.

Definition NewFromFasthttp (c : RequestCtx) (ServiceName : string) : Response :=
  {| customCode := 0;
     serviceName := ServiceName;
     contentType := requestContentType c;
     ctx := ctxFasthttp c |}.


Definition SetContentType (r : Response) (ct : string) : Response :=
  mkResponse (customCode r) (serviceName r) ct (ctx r).



(** [ctx.UserValue(key)]: [None] is nil. *)
Fixpoint UserValue (vals : list (string * uservalue)) (key : string)
  : option uservalue :=
  match vals with
  | [] => None
  | (k, v) :: rest => if String.eqb k key then Some v else UserValue rest key
  end.



(** The visitor of [setFasthttpCustomHeaders] over the user values:
    [value.(string)] panics on a value that is no string. *)
Fixpoint visit_headers (vals : list (string * uservalue))
  (headers : list (string * string)) : outcome (list (string * string)) :=
  match vals with
  | [] => Ret headers
  | (key, v) :: rest =>
      if Strings.HasPrefix key customHeaderPrefix then
        match v with
        | UVString sv =>
            visit_headers rest
              (headers ++ [(Strings.TrimPrefix key customHeaderPrefix, sv)])%list
        | _ => Panic "interface conversion: interface {} is not string"
        end
      else visit_headers rest headers
  end.

Definition setFasthttpCustomHeaders (c : RequestCtx) : outcome RequestCtx :=
  headers <- visit_headers (userValues c) (resp_headers c) ;;
  Ret (mkRequestCtx (userValues c) (requestContentType c) headers
         (resp_status c) (resp_contentType c) (resp_body c)).

(** What a Forward method leaves: the context after the calls made on
    it, and the error returned ([None] is nil). *)
Definition result : Type := (context * option error)%type.

(** [forwardOutput] past [json.Marshal]: [out] are the bytes. *)
Definition writeOutput (r : Response) (statusCode : Z) (out : string)
  : outcome result :=
  match ctx r with
  | ctxFasthttp fctx =>
      fctx <- setFasthttpCustomHeaders fctx ;;
      let statusCode :=
        match UserValue (userValues fctx) customResponseCode with
        | Some (UVInt c) => c
        | _ => statusCode
        end in
      Ret (ctxFasthttp
             (mkRequestCtx (userValues fctx) (requestContentType fctx)
                (resp_headers fctx) (Some statusCode)
                (Some (contentType r)) (Some out)),
           None)
  | ctxEcho ectx =>
      let statusCode :=
        if negb (customCode r =? 0)%Z then customCode r else statusCode in
      let ectx :=
        mkEchoCtx (echo_headers ectx ++ [("Content-Type", contentType r)])%list
          (echo_JSON ectx ++ [(statusCode, out)])%list
          (echo_JSON_error ectx) in
      match echo_JSON_error ectx with
      | Some err => Ret (ctxEcho ectx, Some err)
      | None => Ret (ctxEcho ectx, None)
      end
  | ctxOther => Ret (ctxOther, None)
  end.

(** [forwardOutput] on a [*responseError], which [json.Marshal] always
    encodes. *)
Definition forward_responseError (r : Response) (statusCode : Z)
  (re : responseError) : outcome result :=
  writeOutput r statusCode (Marshal_responseError re).

Definition error_body (source details : string) : responseError :=
  {| re_Code := 0;
     re_Source := source;
     re_Message := internalServerErrorMsg;
     re_Details := details;
     re_Destination := EmptyString;
     re_Fields := [] |}.

(** [status.FromError(err)] on nil or a decoder error: nil gives a nil
    status and [ok = true]; a decoder error has no [GRPCStatus] method,
    which gives a status of code Unknown with the error text as message
    and [ok = false].  A status is modelled by its message, [None] being
    the nil status. *)
Definition status_FromError (err : option UnmarshalError)
  : option string * bool :=
  match err with
  | None => (None, true)
  | Some e => (Some (UnmarshalError_Error e), false)
  end.

(** [sts.Message()], which a nil status answers with the empty string. *)
Definition Status_Message (sts : option string) : string :=
  match sts with
  | Some m => m
  | None => EmptyString
  end.

Section Float64.

Variable float64_text : string -> option string.

(** [ForwardAuthenticationError].  The first statement assigns the
    decoder's error to [err], the parameter. *)
Definition ForwardAuthenticationError (r : Response) (err : error)
  : outcome result :=
  match serviceErrorFromString float64_text (error_Error err) with
  | (_, Some err) =>
      forward_responseError r StatusInternalServerError
        (newResponseError
           (error_body EmptyString (UnmarshalError_Error err)))
  | (None, None) => Panic "nil pointer dereference"
  | (Some ferror, None) =>
      if IsKnownError ferror then
        let code := ResponseCode ferror in
        re <- ToResponseError float64_text ferror ;;
        forward_responseError r code re
      else Ret (ctx r, None)
  end.

(** [ForwardError].  As above, [err] is the decoder's error from the
    first statement on. *)
Definition ForwardError (r : Response) (err : error) : outcome result :=
  match serviceErrorFromString float64_text (error_Error err) with
  | (_, Some err) =>
      forward_responseError r StatusInternalServerError
        (newResponseError
           (error_body EmptyString (UnmarshalError_Error err)))
  | (None, None) => Panic "nil pointer dereference"
  | (Some ferror, None) =>
      let err : option UnmarshalError := None in
      if IsKnownError ferror then
        let code := ResponseCode ferror in
        re <- ToResponseError float64_text ferror ;;
        forward_responseError r code re
      else
        let '(sts, ok) := status_FromError err in
        if ok then
          forward_responseError r StatusInternalServerError
            (newResponseError (error_body EmptyString (Status_Message sts)))
        else
          match jsonError err with
          | Some res => forward_responseError r StatusBadRequest res
          | None =>
              match err with
              | Some e =>
                  forward_responseError r StatusInternalServerError
                    (newResponseError
                       (error_body (serviceName r)
                          (UnmarshalError_Error e)))
              | None => Panic "nil pointer dereference"
              end
          end
  end.


(** The [data] of [forwardOutput]: a [*responseError], or any other
    value, given by what [json.Marshal] returns for it. *)
Inductive data : Type :=
| dataResponseError (re : responseError)
| dataValue (m : string + error).




End Float64.





End Response.

(** * Notions used in the statements *)

(** An instance of [float64_text] for the examples: every literal is in
    range and printed as it was written. *)
Definition float64_as_written (l : string) : option string := Some l.

(** A fasthttp request with no user value and nothing written yet, and
    the response container of service [svc] on it. *)
Definition request0 : Response.RequestCtx :=
  Response.mkRequestCtx [] "application/json" [] None None None.

Definition response0 : Response.Response := Response.NewFromFasthttp request0 "svc".








(** The parts of a segment of the validation detail: the quotes
    removed, the spaces trimmed, cut at the colons. *)
Definition segment_parts (re : string) : list string :=
  Strings.Split (Strings.TrimSpace (Strings.ReplaceAll re DQ EmptyString)) ":".

(** The field name and the location a key stands for, with the indices
    of the Go code read by [nth]. *)
Definition key_of (data : string) : string * string :=
  let res := Strings.Split (Strings.TrimSpace data) "@" in
  if (List.length res =? 1)%nat then (data, "body")
  else (Strings.TrimSpace (nth 0 res EmptyString),
        Strings.TrimSpace (nth 1 res EmptyString)).

(** The entries one segment contributes, [err] being the whole input:
    none when the segment has fewer than two parts, one otherwise. *)
Definition segment_fields (err re : string) : list Validation.Field :=
  let msg := segment_parts re in
  let m0 := nth 0 msg EmptyString in
  if (List.length msg =? 2)%nat then
    [ {| Validation.Field_Field := fst (key_of m0);
         Validation.Field_Message :=
           Strings.TrimSuffix (Strings.TrimSpace (nth 1 msg EmptyString)) ".";
         Validation.Field_Location := snd (key_of m0) |} ]
  else if (2 <? List.length msg)%nat then
    [ {| Validation.Field_Field := fst (key_of m0);
         Validation.Field_Message :=
           Strings.TrimSuffix
             (Strings.TrimSpace (Validation.formatMessage m0 err)) ".";
         Validation.Field_Location := snd (key_of m0) |} ]
  else [].




(** * Properties *)

(** ** Strings *)

Lemma append_assoc (a b c : string) : (a ++ b) ++ c = a ++ (b ++ c).
Proof.
  induction a as [| x a IH]; simpl; [reflexivity | now rewrite IH].
Qed.



(** ** Bytes and UTF-8 *)


Lemma bval_byte_of (n : N) : (n < 256)%N -> bval (byte_of n) = n.
Proof. apply N_ascii_embedding. Qed.



Ltac Zify.zify_post_hook ::= Z.to_euclidean_division_equations.
















(** ** The scanner inside a string *)

Section ScanString.

Import JsonScan.





End ScanString.

(** ** Reading back an escaped string *)

Section Unquote.

Import JsonScan.










End Unquote.

(** ** Integers in base ten *)

Section Numbers.

Import JsonScan.






End Numbers.

(** ** The rendered record, read back *)

Section ReadBack.

Import JsonScan.














End ReadBack.

Section RoundTrip.

Import JsonScan JsonDec Service.

Variable float64_text : string -> option string.









End RoundTrip.



(** ** The validation detail parser *)

Section ValidationParser.

Import Validation.

(** [strings.Split] never returns an empty slice. *)
Lemma split_from_not_nil (sep : string) (s : string) :
  forall skip cur, Strings.split_from sep skip cur s <> [].
Proof.
  induction s as [| c rest IH]; intros skip cur;
    cbn [Strings.split_from].
  - intros H; discriminate H.
  - destruct skip as [| k].
    + destruct (String.prefix sep (String c rest)).
      * intros H; discriminate H.
      * apply IH.
    + apply IH.
Qed.

Lemma Split_length (s sep : string) : (1 <= List.length (Strings.Split s sep))%nat.
Proof.
  unfold Strings.Split.
  pose proof (split_from_not_nil sep s 0 EmptyString) as H.
  destruct (Strings.split_from sep 0 EmptyString s); [congruence | simpl; lia].
Qed.

Lemma at_index_in_range {A : Type} (xs : list A) (i : nat) (d : A) :
  (i < List.length xs)%nat -> at_index xs i = Ret (nth i xs d).
Proof.
  intros H. unfold at_index.
  rewrite (nth_error_nth' xs d H). reflexivity.
Qed.

(** The key of a segment always yields a field name and a location:
    neither index is out of range. *)
Lemma getFieldNameAndLocation_returns (data : string) :
  getFieldNameAndLocation data = Ret (key_of data).
Proof.
  unfold getFieldNameAndLocation, key_of.
  pose proof (Split_length (Strings.TrimSpace data) "@") as Hlen.
  destruct (Nat.eqb_spec (List.length (Strings.Split (Strings.TrimSpace data) "@")) 1)
    as [E | E].
  - reflexivity.
  - rewrite (at_index_in_range _ 0 EmptyString) by lia.
    rewrite (at_index_in_range _ 1 EmptyString) by lia.
    reflexivity.
Qed.

(** One turn of the loop never panics: it appends the entries of its
    segment to the slice. *)
Lemma segment_step_returns (err : string) (errs : list Field) (re : string) :
  segment_step err errs re = Ret (errs ++ segment_fields err re)%list.
Proof.
  unfold segment_step, segment_fields. fold (segment_parts re).
  pose proof (Split_length
                (Strings.TrimSpace (Strings.ReplaceAll re DQ EmptyString)) ":")
    as Hlen.
  fold (segment_parts re) in Hlen.
  destruct (Nat.eqb_spec (List.length (segment_parts re)) 2) as [E2 | E2].
  - rewrite (at_index_in_range _ 0 EmptyString) by lia.
    rewrite (at_index_in_range _ 1 EmptyString) by lia.
    cbn [bind]. rewrite getFieldNameAndLocation_returns. cbn [bind].
    destruct (key_of (nth 0 (segment_parts re) EmptyString)) as [field location].
    cbn [bind fst snd].
    destruct (Nat.ltb_spec 2 (List.length (segment_parts re))); [lia |].
    reflexivity.
  - cbn [bind].
    destruct (Nat.ltb_spec 2 (List.length (segment_parts re))) as [G | G].
    + rewrite (at_index_in_range _ 0 EmptyString) by lia.
      cbn [bind]. rewrite getFieldNameAndLocation_returns. cbn [bind].
      destruct (key_of (nth 0 (segment_parts re) EmptyString))
        as [field location].
      reflexivity.
    + rewrite app_nil_r. reflexivity.
Qed.

(** The loop goes through every segment and appends their entries in
    input order. *)
Lemma range_segments_returns (err : string) (res : list string) :
  forall errs,
    range_segments err errs res
    = Ret (errs ++ flat_map (segment_fields err) res)%list.
Proof.
  induction res as [| re rest IH]; intros errs; cbn [range_segments flat_map].
  - rewrite app_nil_r. reflexivity.
  - rewrite segment_step_returns. cbn [bind]. rewrite IH, app_assoc.
    reflexivity.
Qed.

(** [newValidationErrorFields] returns on every input: its result is
    the entries of the segments, in the order of the segments. *)
Lemma newValidationErrorFields_by_segment (err : string) :
  newValidationErrorFields err
  = Ret (flat_map (segment_fields err) (Strings.Split err segment_separator)).
Proof.
  unfold newValidationErrorFields. apply range_segments_returns.
Qed.

(** A segment with fewer than two parts contributes nothing. *)
Lemma segment_fields_dropped (err re : string) :
  (List.length (segment_parts re) < 2)%nat -> segment_fields err re = [].
Proof.
  intros H. unfold segment_fields.
  destruct (Nat.eqb_spec (List.length (segment_parts re)) 2); [lia |].
  destruct (Nat.ltb_spec 2 (List.length (segment_parts re))); [lia |].
  reflexivity.
Qed.

(** The result is empty when no segment has two parts. *)
Lemma newValidationErrorFields_empty (err : string) :
  (forall re, In re (Strings.Split err segment_separator) ->
              (List.length (segment_parts re) < 2)%nat) ->
  newValidationErrorFields err = Ret [].
Proof.
  intros H. rewrite newValidationErrorFields_by_segment. f_equal.
  induction (Strings.Split err segment_separator) as [| re rest IH].
  - reflexivity.
  - cbn [flat_map]. rewrite segment_fields_dropped by (apply H; left; reflexivity).
    apply IH. intros re' Hin. apply H. right. exact Hin.
Qed.

(** The entry of a segment with exactly two parts is read from the
    segment alone; with more parts the message is read from the whole
    input. *)
Lemma segment_fields_two_parts (err err' re : string) :
  List.length (segment_parts re) = 2%nat ->
  segment_fields err re = segment_fields err' re.
Proof.
  intros H. unfold segment_fields. rewrite H. reflexivity.
Qed.

End ValidationParser.

Section ValidationExamples.

Import Validation.

(** C3, as the spec states it, fails: the spec's input has no
    quote-comma-quote separator, so it is one segment; that segment has
    three parts, and its message is everything past the first key. *)
Lemma C3_spec_input_yields_one_entry :
  newValidationErrorFields "field1: message one, field2@query: message two."
  = Ret [ {| Field_Field := "field1";
             Field_Message := "message one, field2@query: message two";
             Field_Location := "body" |} ].
Proof. vm_compute. reflexivity. Qed.

(** C3, amended: the two entries of the claim come out when the two
    segments are separated by a comma between double quotes, the
    separator the parser cuts at; the input of the claim, whose
    separator is a comma and a space, yields a single entry. *)
Theorem C3_two_entries_with_quoted_separator :
  newValidationErrorFields
    (js "field1: message one','field2@query: message two.")
  = Ret [ {| Field_Field := "field1";
             Field_Message := "message one";
             Field_Location := "body" |};
          {| Field_Field := "field2";
             Field_Message := "message two";
             Field_Location := "query" |} ]
  /\ newValidationErrorFields
       "field1: message one, field2@query: message two."
     = Ret [ {| Field_Field := "field1";
                Field_Message := "message one, field2@query: message two";
                Field_Location := "body" |} ].
Proof. split; vm_compute; reflexivity. Qed.

(** The example of C4 holds: the input is a single segment. *)
Lemma embedded_colon_single_segment :
  newValidationErrorFields "field: value must be > 10: check config"
  = Ret [ {| Field_Field := "field";
             Field_Message := "value must be > 10: check config";
             Field_Location := "body" |} ].
Proof. vm_compute. reflexivity. Qed.

(** C4: the code at the failing input.  The first segment has three
    parts; its message is cut out of the whole input, not out of the
    segment, so it runs on into the separator and the next segment. *)
Theorem C4_message_taken_from_whole_input :
  newValidationErrorFields (js "a: x: y','b: z")
  = Ret [ {| Field_Field := "a";
             Field_Message := js "x: y','b: z";
             Field_Location := "body" |};
          {| Field_Field := "b";
             Field_Message := "z";
             Field_Location := "body" |} ].
Proof. vm_compute. reflexivity. Qed.

(** Every occurrence of the key and a colon is removed, not only the
    one at the front. *)
Lemma formatMessage_removes_every_occurrence :
  newValidationErrorFields "d: bad id: x"
  = Ret [ {| Field_Field := "d";
             Field_Message := "bad i x";
             Field_Location := "body" |} ].
Proof. vm_compute. reflexivity. Qed.

(** C8: the code at the failing input.  The segment [junk] has no
    colon and yields no entry, yet its text is in the message of the
    segment after it, which alone yields the message [x: y]. *)
Theorem C8_dropped_segment_leaks_into_next_message :
  newValidationErrorFields (js "junk','a: x: y")
  = Ret [ {| Field_Field := "a";
             Field_Message := js "junk',' x: y";
             Field_Location := "body" |} ]
  /\ newValidationErrorFields "a: x: y"
     = Ret [ {| Field_Field := "a";
                Field_Message := "x: y";
                Field_Location := "body" |} ].
Proof. split; vm_compute; reflexivity. Qed.

End ValidationExamples.

(** ** The status of a decoded record *)

Section Classifier.

Import JsonDec Service.

(** C7: [ResponseCode] reads the kind only, so two records of the same
    kind get the same status whatever their other fields; the four
    kinds with a status of their own get 400, 404, 412 and 401, and
    InternalError and every other kind get 500. *)
Theorem C7_ResponseCode_by_kind :
  (forall kind c1 sn1 m1 d1 det1 c2 sn2 m2 d2 det2,
      ResponseCode (mkServiceErr c1 sn1 m1 d1 kind det1)
      = ResponseCode (mkServiceErr c2 sn2 m2 d2 kind det2))
  /\ (forall s, Kind s = "ValidationError" -> ResponseCode s = 400%Z)
  /\ (forall s, Kind s = "NotFoundError" -> ResponseCode s = 404%Z)
  /\ (forall s, Kind s = "ConditionError" -> ResponseCode s = 412%Z)
  /\ (forall s, Kind s = "PermissionError" -> ResponseCode s = 401%Z)
  /\ (forall s, Kind s = "InternalError" -> ResponseCode s = 500%Z)
  /\ (forall s,
         Kind s <> "ValidationError" -> Kind s <> "NotFoundError" ->
         Kind s <> "ConditionError" -> Kind s <> "PermissionError" ->
         ResponseCode s = 500%Z).
Proof.
  repeat split.
  - intros s H. unfold ResponseCode. rewrite H. reflexivity.
  - intros s H. unfold ResponseCode. rewrite H. reflexivity.
  - intros s H. unfold ResponseCode. rewrite H. reflexivity.
  - intros s H. unfold ResponseCode. rewrite H. reflexivity.
  - intros s H. unfold ResponseCode. rewrite H. reflexivity.
  - intros s H1 H2 H3 H4. unfold ResponseCode.
    repeat match goal with
           | |- context [String.eqb ?a ?b] =>
               destruct (String.eqb_spec a b); [congruence |]
           end.
    reflexivity.
Qed.

Lemma C7_ResponseCode_by_kind_witness :
  ResponseCode (mkServiceErr 7 "a" "b" "c" "NotFoundError" VNil) = 404%Z
  /\ ResponseCode (mkServiceErr 0 "a" "b" "c" "Teapot" (VString "x")) = 500%Z.
Proof.
  split.
  - apply (proj1 (proj2 (proj2 C7_ResponseCode_by_kind))). reflexivity.
  - apply (proj2 (proj2 (proj2 (proj2 (proj2 (proj2 C7_ResponseCode_by_kind))))));
      simpl; intros H; discriminate H.
Defined.

End Classifier.

(** ** Rendering a record *)

Section Rendering.

Import Errors.





(** A record that shows its details and whose detail is a plain
    error: the detail is rendered as the empty object. *)
Lemma Error_String_plain_detail (e : Error) (text : string) :
  hideDetails e = false ->
  SublevelError e = Some (errors_New text) ->
  Error_String e
  = "{" ++ JsonEnc.quote "code" ++ ":" ++ JsonEnc.itoa (Code e)
    ++ omitempty "service_name" (ServiceName e)
    ++ omitempty "message" (Message e)
    ++ omitempty "destination" (Destination e)
    ++ member "kind" (JsonEnc.quote (Kind e))
    ++ member "details" "{}" ++ "}".
Proof.
  intros Hh Hd. unfold Error_String, String_out, Marshal.
  rewrite Hh. cbn [negb SublevelError Code ServiceName Message Destination Kind].
  rewrite Hd. cbn [marshal_error]. rewrite !append_assoc. reflexivity.
Qed.



(** The three constructors that take or build a detail: with a plain
    error the rendering is the same whatever its text. *)
Lemma factory_plain_detail_text_is_lost (f : Factory) (t1 t2 : string) :
  hideMessageDetails f = false ->
  Error_String (err (FailedPrecondition f t1))
  = Error_String (err (FailedPrecondition f t2))
  /\ Error_String (err (InvalidArgument f (Some (errors_New t1))))
     = Error_String (err (InvalidArgument f (Some (errors_New t2))))
  /\ Error_String (err (Internal f (Some (errors_New t1))))
     = Error_String (err (Internal f (Some (errors_New t2)))).
Proof.
  intros H. repeat split.
  - rewrite (Error_String_plain_detail
               (err (FailedPrecondition f t1)) t1 H eq_refl).
    rewrite (Error_String_plain_detail
               (err (FailedPrecondition f t2)) t2 H eq_refl).
    reflexivity.
  - rewrite (Error_String_plain_detail
               (err (InvalidArgument f (Some (errors_New t1)))) t1 H eq_refl).
    rewrite (Error_String_plain_detail
               (err (InvalidArgument f (Some (errors_New t2)))) t2 H eq_refl).
    reflexivity.
  - rewrite (Error_String_plain_detail
               (err (Internal f (Some (errors_New t1)))) t1 H eq_refl).
    rewrite (Error_String_plain_detail
               (err (Internal f (Some (errors_New t2)))) t2 H eq_refl).
    reflexivity.
Qed.

End Rendering.

(** ** Forwarding an error *)

Section Forwarding.

Import JsonDec Service Response.

Variable float64_text : string -> option string.

(** When the text of the error does not decode, [ForwardError] writes
    500 and a body whose details are the text of the decoder's error. *)
Lemma ForwardError_decode_failure (r : Response) (err : error)
  (e : UnmarshalError) :
  serviceErrorFromString float64_text (error_Error err) = (None, Some e) ->
  ForwardError float64_text r err
  = writeOutput r 500
      (Marshal_responseError
         {| re_Code := 0; re_Source := EmptyString;
            re_Message := "internal service error";
            re_Details := UnmarshalError_Error e;
            re_Destination := EmptyString; re_Fields := [] |}).
Proof.
  intros H. unfold ForwardError. rewrite H. reflexivity.
Qed.

(** C1: the code at the failing input.  The text [connection refused]
    is no JSON; the response has status 500 and the message of the
    claim, but its details are the decoder's complaint about the first
    byte, not the text of the error that was passed in. *)
Theorem C1_details_are_the_decoder_error :
  ForwardError float64_text response0 (errors_New "connection refused")
  = Ret (ctxFasthttp
           (mkRequestCtx [] "application/json" [] (Some 500%Z)
              (Some "application/json")
              (Some (Marshal_responseError
                       {| re_Code := 0; re_Source := EmptyString;
                          re_Message := "internal service error";
                          re_Details :=
                            "invalid character 'c' looking for beginning of value";
                          re_Destination := EmptyString;
                          re_Fields := [] |}))),
         None).
Proof. vm_compute. reflexivity. Qed.

(** C10: when the text of the error decodes to a record whose kind is
    none of the five known ones, [ForwardAuthenticationError] returns
    nil and leaves the context as it was: no status, no header, no
    body is written. *)
Theorem C10_unknown_kind_writes_nothing (r : Response) (err : error)
  (ferror : serviceError) :
  serviceErrorFromString float64_text (error_Error err) = (Some ferror, None) ->
  IsKnownError ferror = false ->
  ForwardAuthenticationError float64_text r err = Ret (ctx r, None).
Proof.
  intros Hdec Hk. unfold ForwardAuthenticationError.
  rewrite Hdec, Hk. reflexivity.
Qed.








End Forwarding.

Lemma C10_unknown_kind_witness :
  Response.ForwardAuthenticationError float64_as_written response0
    (errors_New (js "{'code':9,'kind':'QuotaError','message':'slow down'}"))
  = Ret (Response.ctxFasthttp request0, None).
Proof.
  apply (C10_unknown_kind_writes_nothing float64_as_written response0
           (errors_New (js "{'code':9,'kind':'QuotaError','message':'slow down'}"))
           (Service.mkServiceErr 9 EmptyString "slow down" EmptyString
              "QuotaError" JsonDec.VNil)).
  - vm_compute. reflexivity.
  - vm_compute. reflexivity.
Defined.


